(** * ember: the language-model module (lm_modules.py)

    A shallow embedding of [LMModuleConfig], [get_default_model_service]
    and [LMModule] from
    [src/ember/core/registry/model/core/modules/lm_modules.py], with the
    part of Python's calling convention that the module relies on. *)

From Stdlib Require Import ZArith NArith String Ascii List Floats.
From stdpp Require Import base option list gmap strings.

Local Open Scope string_scope.
Local Open Scope list_scope.
Local Open Scope N_scope.
Set Warnings "-inexact-float".

(** ** Python strings

    A Python [str] is a sequence of Unicode code points. *)

Definition char := N.
Definition str := list char.

(** An ASCII literal of the source, as a [str]. *)
Definition lit (s : string) : str :=
  map (fun a : ascii => N_of_ascii a) (list_ascii_of_string s).

(** The line feed written [\n] in the source's literals. *)
Definition nl : str := [10].

(** [str.isspace] on one code point: the characters that [str.strip()]
    removes (CPython's [Py_UNICODE_ISSPACE]). *)
Definition isspace (c : char) : bool :=
  ((9 <=? c) && (c <=? 13)) || ((28 <=? c) && (c <=? 32))
  || (c =? 133) || (c =? 160) || (c =? 5760)
  || ((8192 <=? c) && (c <=? 8202))
  || (c =? 8232) || (c =? 8233) || (c =? 8239) || (c =? 8287)
  || (c =? 12288).

(** [str.lstrip()], [str.rstrip()] and [str.strip()] with no argument. *)
Fixpoint lstrip (s : str) : str :=
  match s with
  | [] => []
  | c :: t => if isspace c then lstrip t else s
  end.

Definition rstrip (s : str) : str := rev (lstrip (rev s)).

Definition strip (s : str) : str := rstrip (lstrip s).

(** [sep.join(segments)]. *)
Fixpoint join (sep : str) (segments : list str) : str :=
  match segments with
  | [] => []
  | [x] => x
  | x :: rest => x ++ sep ++ join sep rest
  end.

(** Truthiness of an [Optional[str]]: [None] and the empty string are
    false. *)
Definition truthy (o : option str) : bool :=
  match o with
  | Some (_ :: _) => true
  | _ => false
  end.

(** The text of an [Optional[str]] that was tested truthy. *)
Definition text (o : option str) : str := default [] o.

(** ** LMModuleConfig *)

Record LMModuleConfig := {
  model_id : str;
  temperature : float;
  max_tokens : option Z;
  cot_prompt : option str;
  persona : option str
}.

(** ** LMModule._assemble_full_prompt

    [segments] is built by the three [append]s of the source, each one
    adding at the end of the list. *)
Definition _assemble_full_prompt (config : LMModuleConfig) (user_prompt : str) : str :=
  let segments : list str := [] in
  let segments :=
    if truthy (persona config)
    then segments ++ [lit "[Persona: " ++ text (persona config) ++ lit "]" ++ nl]
    else segments in
  let segments := segments ++ [strip user_prompt] in
  let segments :=
    if truthy (cot_prompt config)
    then segments ++ [nl ++ nl ++ lit "# Chain of Thought:" ++ nl
                      ++ strip (text (cot_prompt config))]
    else segments in
  strip (join nl segments).

(** ** Python values, exceptions and responses *)

(** The values that travel through keyword arguments. *)
Inductive pyval :=
| PyNone
| PyBool (b : bool)
| PyInt (n : Z)
| PyFloat (x : float)
| PyStr (s : str).

Inductive exception :=
| TypeError                 (* raised by the interpreter when a call cannot bind its arguments *)
| ValidationError           (* raised by pydantic when a field constraint fails *)
| Raised (name : string).   (* whatever the model service raises *)

(** What [invoke_model] hands back: a Python object, seen through the two
    observations [forward] makes of it, its attributes ([hasattr],
    attribute access) and its [str()] conversion. *)
Record Response := {
  resp_attrs : gmap string pyval;
  resp_str : str
}.

Definition hasattr (r : Response) (name : string) : bool :=
  match resp_attrs r !! name with Some _ => true | None => false end.

(** ** Calls with keyword arguments

    A call that gives explicit keywords [k1=v1, ..., kn=vn] and then
    unpacks a dictionary [kwargs]: the callee receives the explicit
    keywords together with the entries of [kwargs]; a name that is given
    both ways raises [TypeError] at the call site, before [f] is entered. *)
Definition has_key (kwargs : gmap string pyval) (k : string) : bool :=
  match kwargs !! k with Some _ => true | None => false end.

Definition call_keywords (explicit : list (string * pyval)) (kwargs : gmap string pyval)
  : exception + gmap string pyval :=
  if existsb (fun kv => has_key kwargs kv.1) explicit
  then inl TypeError
  else inr (list_to_map explicit ∪ kwargs).

(** A call with positional arguments only, to a function that declares
    two required parameters. *)
Definition bind_two {A : Type} (args : list A) : exception + A * A :=
  match args with
  | [a; b] => inr (a, b)
  | _ => inl TypeError
  end.

(** [kwargs.get(key, fallback)]. *)
Definition dict_get (kwargs : gmap string pyval) (key : string) (fallback : pyval) : pyval :=
  default fallback (kwargs !! key).

Definition of_optional_int (o : option Z) : pyval :=
  match o with Some n => PyInt n | None => PyNone end.

(** ** Construction of an LMModuleConfig

    [Field(default=..., ge=..., le=...)] on a [float] field: the value is
    accepted when [ge <= value] and [value <= le] both hold. *)
Definition field_bounds (ge le value : float) : bool :=
  ((ge <=? value) && (value <=? le))%float.

(** [LMModuleConfig(...)]. For [model_id] and [temperature], [None] stands
    for an omitted argument, which takes the field's default; defaults are
    not validated. *)
Definition LMModuleConfig_new
    (model_id : option str) (temperature : option float)
    (max_tokens : option Z) (cot_prompt persona : option str)
  : exception + LMModuleConfig :=
  let model_id := default (lit "openai:gpt-4o") model_id in
  match temperature with
  | None =>
    inr {| model_id := model_id; temperature := 1%float; max_tokens := max_tokens;
           cot_prompt := cot_prompt; persona := persona |}
  | Some t =>
    if field_bounds 0%float 5%float t
    then inr {| model_id := model_id; temperature := t; max_tokens := max_tokens;
                cot_prompt := cot_prompt; persona := persona |}
    else inl ValidationError
  end.

(** ** The collaborators imported by the module

    [ModelRegistry], [UsageService] and [ModelService.invoke_model] are
    imported from modules outside this file. [World] is the state they
    work on: the registry's cache, the usage accumulators, the providers. *)
Record ModelService (R U : Type) := {
  registry : R;
  usage_service : U
}.
Arguments registry {R U} _.
Arguments usage_service {R U} _.

Class Services := {
  ModelRegistry : Type;
  UsageService : Type;
  World : Type;
  GLOBAL_MODEL_REGISTRY : ModelRegistry;
  (* UsageService() *)
  UsageService_new : World -> UsageService * World;
  (* ModelService.invoke_model, called with keyword arguments *)
  invoke_model :
    ModelService ModelRegistry UsageService -> gmap string pyval -> World ->
    (exception + Response) * World
}.

Section LMModules.
Context `{Services}.

Definition service := ModelService ModelRegistry UsageService.

(** ** get_default_model_service *)
Definition get_default_model_service {A B : Type} (registry : A) (usage_service : B)
    (w : World) : service * World :=
  let registry := GLOBAL_MODEL_REGISTRY in
  let '(usage_service, w) := UsageService_new w in
  ({| registry := registry; usage_service := usage_service |}, w).

(** A call of [get_default_model_service] with the positional arguments
    [args]. *)
Definition call_get_default_model_service {A : Type} (args : list A) (w : World)
  : (exception + service) * World :=
  match bind_two args with
  | inl e => (inl e, w)
  | inr (registry, usage_service) =>
    let '(s, w) := get_default_model_service registry usage_service w in (inr s, w)
  end.

(** ** LMModule *)

Record LMModule := {
  config : LMModuleConfig;
  model_service : service;
  _logger : string
}.

(** The attributes of an instance from its creation on: [None] for an
    attribute that has not been assigned yet. *)
Record LMModule_dict := {
  d_config : option LMModuleConfig;
  d_model_service : option service;
  d_logger : option string
}.

Definition new_instance : LMModule_dict :=
  {| d_config := None; d_model_service := None; d_logger := None |}.

(** [LMModule.__init__(self, config, model_service)], as a transformer of
    the instance's attributes and of the world. *)
Definition __init__ (self : LMModule_dict) (config : LMModuleConfig)
    (model_service : option service) (w : World)
  : (exception + unit) * LMModule_dict * World :=
  let '(r, w) :=
    match model_service with
    | None => call_get_default_model_service (@nil pyval) w
    | Some s => (inr s, w)
    end in
  match r with
  | inl e => (inl e, self, w)
  | inr model_service =>
    let self := {| d_config := Some config; d_model_service := d_model_service self;
                   d_logger := d_logger self |} in
    let self := {| d_config := d_config self; d_model_service := Some model_service;
                   d_logger := d_logger self |} in
    let self := {| d_config := d_config self; d_model_service := d_model_service self;
                   d_logger := Some "LMModule" |} in
    (inr tt, self, w)
  end.

(** [LMModule(config, model_service)]: a new instance is initialised by
    [__init__], and is the result when [__init__] returns. *)
Definition LMModule_new (config : LMModuleConfig) (model_service : option service)
    (w : World) : (exception + LMModule_dict) * World :=
  let '(r, self, w) := __init__ new_instance config model_service w in
  match r with
  | inl e => (inl e, w)
  | inr _ => (inr self, w)
  end.

(** An instance whose three attributes are assigned, as the methods read
    it. *)
Definition initialised (self : LMModule_dict) : option LMModule :=
  match self with
  | {| d_config := Some c; d_model_service := Some s; d_logger := Some l |} =>
    Some {| config := c; model_service := s; _logger := l |}
  | _ => None
  end.

(** The keywords that [forward] writes out in its call of [invoke_model],
    before it unpacks [kwargs] into the same call. *)
Definition explicit_keywords (config : LMModuleConfig) (final_prompt : str)
    (kwargs : gmap string pyval) : list (string * pyval) :=
  [("model_id", PyStr (model_id config));
   ("prompt", PyStr final_prompt);
   ("temperature", dict_get kwargs "temperature" (PyFloat (temperature config)));
   ("max_tokens", dict_get kwargs "max_tokens" (of_optional_int (max_tokens config)))].

(** The body of [LMModule.forward], run with the dictionary [kwargs] that
    the binding of its parameters has made of the extra keywords: Python
    binds [self] and [prompt] to the parameters of these names, so the
    dictionary never holds them ([bind_kwargs] below is that binding). The
    result carries the instance as it is after the call. *)
Definition forward (self : LMModule) (prompt : str) (kwargs : gmap string pyval)
    (w : World) : (exception + pyval) * LMModule * World :=
  let final_prompt := _assemble_full_prompt (config self) prompt in
  match call_keywords (explicit_keywords (config self) final_prompt kwargs) kwargs with
  | inl e => (inl e, self, w)
  | inr keywords =>
    let '(r, w) := invoke_model (model_service self) keywords w in
    match r with
    | inl e => (inl e, self, w)
    | inr response =>
      (inr (if hasattr response "data"
            then default PyNone (resp_attrs response !! "data")
            else PyStr (resp_str response)),
       self, w)
    end
  end.

(** [LMModule.__call__]: it calls [self.forward] with the keyword [prompt]
    followed by its own [kwargs]; the [prompt] keyword binds [forward]'s
    parameter and the other keywords become [forward]'s [kwargs]. *)
Definition __call__ (self : LMModule) (prompt : str) (kwargs : gmap string pyval)
    (w : World) : (exception + pyval) * LMModule * World :=
  match call_keywords [("prompt", PyStr prompt)] kwargs with
  | inl e => (inl e, self, w)
  | inr received => forward self prompt (delete "prompt" received) w
  end.

(** The binding of a call [m.forward(prompt, ...)] or [m(prompt, ...)]
    with extra keywords to the parameters [self], [prompt] and [kwargs]
    that both methods declare: [self] is the instance and [prompt] the
    positional argument, so a keyword of either name gives the parameter a
    second value and raises [TypeError] before the body runs; any other
    keywords make up [kwargs]. *)
Definition bind_kwargs (keywords : gmap string pyval) : exception + gmap string pyval :=
  if has_key keywords "self" || has_key keywords "prompt"
  then inl TypeError
  else inr keywords.

(** The call [m.forward(prompt, ...)] with the extra keywords [keywords]. *)
Definition LMModule_forward (self : LMModule) (prompt : str)
    (keywords : gmap string pyval) (w : World)
  : (exception + pyval) * LMModule * World :=
  match bind_kwargs keywords with
  | inl e => (inl e, self, w)
  | inr kwargs => forward self prompt kwargs w
  end.

(** The call [m(prompt, ...)] with the extra keywords [keywords]. *)
Definition LMModule_call (self : LMModule) (prompt : str)
    (keywords : gmap string pyval) (w : World)
  : (exception + pyval) * LMModule * World :=
  match bind_kwargs keywords with
  | inl e => (inl e, self, w)
  | inr kwargs => __call__ self prompt kwargs w
  end.

End LMModules.

(** ** Concrete inputs *)

Definition helper_config : LMModuleConfig :=
  {| model_id := lit "openai:gpt-4o";
     temperature := 1%float;
     max_tokens := None;
     cot_prompt := Some (lit "Think step by step");
     persona := Some (lit "Helper") |}.

Definition bare_config : LMModuleConfig :=
  {| model_id := lit "openai:gpt-4o";
     temperature := 1%float;
     max_tokens := None;
     cot_prompt := None;
     persona := None |}.

(** A model service for running the module on concrete inputs: it answers
    every call with [reply] and keeps the list of the keyword arguments it
    was invoked with; registries go by name and usage services are
    numbered as they are made. *)
Record recorded := {
  calls : list (gmap string pyval);
  usage_services : nat
}.

Definition recording (reply : gmap string pyval -> exception + Response) : Services :=
  {| ModelRegistry := string;
     UsageService := nat;
     World := recorded;
     GLOBAL_MODEL_REGISTRY := "GLOBAL_MODEL_REGISTRY";
     UsageService_new w :=
       (usage_services w,
        {| calls := calls w; usage_services := S (usage_services w) |});
     invoke_model _ keywords w :=
       (reply keywords,
        {| calls := calls w ++ [keywords]; usage_services := usage_services w |}) |}.

(** The reply of a provider that echoes the prompt as a plain string. *)
Definition echo (keywords : gmap string pyval) : exception + Response :=
  inr {| resp_attrs := ∅;
         resp_str := lit "Echo: " ++
                     match keywords !! "prompt" with
                     | Some (PyStr p) => p
                     | _ => []
                     end |}.

(** The reply of a provider whose response object has a [data] attribute. *)
Definition structured (keywords : gmap string pyval) : exception + Response :=
  inr {| resp_attrs := {[ "data" := PyStr (lit "4") ]};
         resp_str := lit "ChatResponse(data='4')" |}.

Definition persona_only_config : LMModuleConfig :=
  {| model_id := lit "openai:gpt-4o";
     temperature := 1%float;
     max_tokens := None;
     cot_prompt := Some [];
     persona := Some (lit "Helper") |}.

Definition cot_only_config : LMModuleConfig :=
  {| model_id := lit "openai:gpt-4o";
     temperature := 1%float;
     max_tokens := None;
     cot_prompt := Some (lit " Think step by step ");
     persona := None |}.

Definition blank_cot_config : LMModuleConfig :=
  {| model_id := lit "openai:gpt-4o";
     temperature := 1%float;
     max_tokens := None;
     cot_prompt := Some (lit " ");
     persona := None |}.

(** The reply of a provider that fails. *)
Definition unavailable (keywords : gmap string pyval) : exception + Response :=
  inl (Raised "RuntimeError").

Definition nothing_yet : recorded := {| calls := []; usage_services := 0 |}.

Definition bare_module (S : Services) (s : @service S) : @LMModule S :=
  {| config := bare_config; model_service := s; _logger := "LMModule" |}.

Definition helper_module (S : Services) (s : @service S) : @LMModule S :=
  {| config := helper_config; model_service := s; _logger := "LMModule" |}.

(** The config of the example in the class docstring. *)
Definition custom_config : LMModuleConfig :=
  {| model_id := lit "provider:custom-model";
     temperature := 0.7%float;
     max_tokens := None;
     cot_prompt := None;
     persona := None |}.

Definition custom_module (S : Services) (s : @service S) : @LMModule S :=
  {| config := custom_config; model_service := s; _logger := "LMModule" |}.

Definition recording_service : ModelService string nat :=
  {| registry := "GLOBAL_MODEL_REGISTRY"; usage_service := 0%nat |}.

(** * Properties *)

(** ** Stripping *)

Lemma lstrip_length s : (length (lstrip s) <= length s)%nat.
Proof.
  induction s as [|c t IH]; simpl; [lia|].
  destruct (isspace c); simpl; lia.
Qed.

Lemma lstrip_idem s : lstrip (lstrip s) = lstrip s.
Proof.
  induction s as [|c t IH]; simpl; [reflexivity|].
  destruct (isspace c) eqn:E; [exact IH|].
  simpl. now rewrite E.
Qed.

(** A string that [lstrip] leaves alone is empty or starts with a
    character that is not white space. *)
Lemma lstrip_fixed_head c t : lstrip (c :: t) = c :: t -> isspace c = false.
Proof.
  simpl. destruct (isspace c); [|reflexivity].
  intros E. pose proof (lstrip_length t) as L.
  rewrite E in L. simpl in L. lia.
Qed.

Lemma lstrip_snoc s c :
  lstrip (s ++ [c]) =
  match lstrip s with
  | [] => lstrip [c]
  | _ :: _ => lstrip s ++ [c]
  end.
Proof.
  induction s as [|a t IH]; simpl; [reflexivity|].
  destruct (isspace a); [exact IH|reflexivity].
Qed.

Lemma rstrip_cons c t :
  rstrip (c :: t) =
  match rstrip t with
  | [] => if isspace c then [] else [c]
  | _ :: _ => c :: rstrip t
  end.
Proof.
  unfold rstrip. simpl rev at 2. rewrite lstrip_snoc.
  destruct (lstrip (rev t)) as [|a u] eqn:E.
  - simpl. destruct (isspace c); reflexivity.
  - rewrite rev_app_distr. change (rev [c]) with [c].
    remember (rev (a :: u)) as r eqn:R. destruct r; [|reflexivity].
    apply (f_equal (@length _)) in R. rewrite length_rev in R. discriminate.
Qed.

Lemma rstrip_idem s : rstrip (rstrip s) = rstrip s.
Proof. unfold rstrip. now rewrite rev_involutive, lstrip_idem. Qed.

Lemma lstrip_rstrip_fixed s : lstrip s = s -> lstrip (rstrip s) = rstrip s.
Proof.
  destruct s as [|c t]; [reflexivity|].
  intros E. apply lstrip_fixed_head in E.
  rewrite rstrip_cons. destruct (rstrip t).
  - rewrite E. simpl. now rewrite E.
  - simpl. now rewrite E.
Qed.

Lemma strip_idem s : strip (strip s) = strip s.
Proof.
  unfold strip.
  rewrite (lstrip_rstrip_fixed (lstrip s) (lstrip_idem s)).
  apply rstrip_idem.
Qed.

(** ** Prompt assembly *)

Lemma assemble_bare config user_prompt :
  truthy (persona config) = false ->
  truthy (cot_prompt config) = false ->
  _assemble_full_prompt config user_prompt = strip user_prompt.
Proof.
  intros Hp Hc. unfold _assemble_full_prompt. rewrite Hp, Hc. simpl.
  apply strip_idem.
Qed.

(** C1 (as stated, refuted): with persona "Helper" and chain of thought
    "Think step by step", the prompt "What is 2+2?" is not assembled into
    the string with a single line feed after the persona header and two
    before the chain-of-thought header. *)
Lemma assemble_helper_not_single_spaced :
  _assemble_full_prompt helper_config (lit "What is 2+2?")
  <> lit "[Persona: Helper]" ++ nl ++ lit "What is 2+2?" ++ nl ++ nl
     ++ lit "# Chain of Thought:" ++ nl ++ lit "Think step by step".
Proof. vm_compute. discriminate. Qed.

(** C1 (amended): for a config with persona "Helper" and chain of thought
    "Think step by step", the prompt "What is 2+2?" is assembled into the
    persona header, an empty line, the prompt, two empty lines, the
    chain-of-thought header and the chain-of-thought text: the persona
    segment ends with a line feed of its own and the chain-of-thought
    segment starts with two, and [join] adds one more between segments. *)
Theorem assemble_helper (config : LMModuleConfig) :
  persona config = Some (lit "Helper") ->
  cot_prompt config = Some (lit "Think step by step") ->
  _assemble_full_prompt config (lit "What is 2+2?")
  = lit "[Persona: Helper]" ++ nl ++ nl ++ lit "What is 2+2?" ++ nl ++ nl ++ nl
    ++ lit "# Chain of Thought:" ++ nl ++ lit "Think step by step".
Proof.
  intros Hp Hc. unfold _assemble_full_prompt. rewrite Hp, Hc.
  vm_compute. reflexivity.
Qed.

Lemma assemble_helper_witness :
  _assemble_full_prompt helper_config (lit "What is 2+2?")
  = lit "[Persona: Helper]" ++ nl ++ nl ++ lit "What is 2+2?" ++ nl ++ nl ++ nl
    ++ lit "# Chain of Thought:" ++ nl ++ lit "Think step by step".
Proof. apply (assemble_helper helper_config); reflexivity. Defined.

(** C4: with no persona and no chain-of-thought prompt, the assembled
    prompt is the user prompt stripped of leading and trailing white
    space, for every user prompt. *)
Theorem assemble_no_persona_no_cot (config : LMModuleConfig) (user_prompt : str) :
  persona config = None ->
  cot_prompt config = None ->
  _assemble_full_prompt config user_prompt = strip user_prompt.
Proof.
  intros Hp Hc. apply assemble_bare; [rewrite Hp | rewrite Hc]; reflexivity.
Qed.

Lemma assemble_no_persona_no_cot_witness :
  _assemble_full_prompt bare_config (lit "  Hello, world!  ") = lit "Hello, world!".
Proof.
  rewrite (assemble_no_persona_no_cot bare_config (lit "  Hello, world!  "));
    reflexivity.
Defined.

(** C10: an empty persona gives the same assembled prompt as no persona,
    and an empty chain-of-thought prompt the same as none, whatever the
    other fields and the user prompt are; with both empty the result is
    the stripped user prompt, with no header and no chain-of-thought
    section. *)
Theorem assemble_empty_is_absent
    (mid : str) (t : float) (mt : option Z) (cot per : option str) (user_prompt : str) :
  _assemble_full_prompt
    {| model_id := mid; temperature := t; max_tokens := mt;
       cot_prompt := cot; persona := Some [] |} user_prompt
  = _assemble_full_prompt
      {| model_id := mid; temperature := t; max_tokens := mt;
         cot_prompt := cot; persona := None |} user_prompt
  /\ _assemble_full_prompt
       {| model_id := mid; temperature := t; max_tokens := mt;
          cot_prompt := Some []; persona := per |} user_prompt
     = _assemble_full_prompt
         {| model_id := mid; temperature := t; max_tokens := mt;
            cot_prompt := None; persona := per |} user_prompt
  /\ _assemble_full_prompt
       {| model_id := mid; temperature := t; max_tokens := mt;
          cot_prompt := Some []; persona := Some [] |} user_prompt
     = strip user_prompt.
Proof.
  split; [reflexivity|]. split; [reflexivity|].
  now apply assemble_bare.
Qed.

(** ** Construction of the config *)

Lemma SFcompare_lt_gt m e m' e' :
  SFcompare (S754_finite false m e) (S754_finite false m' e') = Some Lt ->
  SFcompare (S754_finite false m' e') (S754_finite false m e) = Some Gt.
Proof.
  unfold SFcompare.
  change (PosDef.Pos.compare_cont Eq m' m) with (Pos.compare m' m).
  change (PosDef.Pos.compare_cont Eq m m') with (Pos.compare m m').
  rewrite (Z.compare_antisym e e'), (Pos.compare_antisym m m').
  destruct (e ?= e')%Z, (m ?= m')%positive; simpl; congruence.
Qed.

Lemma below_zero_not_ge (t : float) : (t <? 0)%float = true -> (0 <=? t)%float = false.
Proof.
  rewrite ltb_spec, leb_spec.
  change (Prim2SF 0) with (S754_zero false).
  destruct (Prim2SF t) as [s| s| |s m e]; try destruct s; cbn; congruence.
Qed.

Lemma above_five_not_le (t : float) : (5 <? t)%float = true -> (t <=? 5)%float = false.
Proof.
  rewrite ltb_spec, leb_spec.
  replace (Prim2SF 5) with (S754_finite false 5629499534213120 (-50))
    by (vm_compute; reflexivity).
  unfold SFltb, SFleb.
  destruct (Prim2SF t) as [s| s| |s m e].
  - destruct s; simpl; congruence.
  - destruct s; simpl; congruence.
  - simpl; congruence.
  - destruct s; [simpl; congruence|].
    intros Hlt.
    destruct (SFcompare (S754_finite false 5629499534213120 (-50)) (S754_finite false m e))
      as [[| |]|] eqn:E; try discriminate.
    now rewrite (SFcompare_lt_gt _ _ _ _ E).
Qed.

(** C7: a temperature [t] with [0.0 <= t] and [t <= 5.0] (the end points
    included) is accepted and stored as it is; a temperature below 0.0 or
    above 5.0 is rejected with a validation error; and a construction that
    succeeds has its temperature in the closed interval. *)
Theorem temperature_bounds
    (mid : option str) (t : float) (mt : option Z) (cot per : option str) :
  ((0 <=? t)%float = true -> (t <=? 5)%float = true ->
   LMModuleConfig_new mid (Some t) mt cot per
   = inr {| model_id := default (lit "openai:gpt-4o") mid; temperature := t;
            max_tokens := mt; cot_prompt := cot; persona := per |})
  /\ ((t <? 0)%float = true \/ (5 <? t)%float = true ->
      LMModuleConfig_new mid (Some t) mt cot per = inl ValidationError)
  /\ (forall c, LMModuleConfig_new mid (Some t) mt cot per = inr c ->
      (0 <=? t)%float = true /\ (t <=? 5)%float = true /\ temperature c = t).
Proof.
  unfold LMModuleConfig_new, field_bounds. split; [|split].
  - intros H0 H5. now rewrite H0, H5.
  - intros [H|H].
    + now rewrite (below_zero_not_ge t H).
    + rewrite (above_five_not_le t H). now rewrite andb_false_r.
  - intros c. destruct (0 <=? t)%float, (t <=? 5)%float; simpl; try discriminate.
    intros E. injection E as <-. repeat split.
Qed.

Lemma temperature_bounds_witness :
  LMModuleConfig_new None (Some 0%float) None None None
  = inr {| model_id := lit "openai:gpt-4o"; temperature := 0%float;
           max_tokens := None; cot_prompt := None; persona := None |}
  /\ LMModuleConfig_new None (Some 5%float) None None None
     = inr {| model_id := lit "openai:gpt-4o"; temperature := 5%float;
              max_tokens := None; cot_prompt := None; persona := None |}
  /\ LMModuleConfig_new None (Some (-0.5)%float) None None None = inl ValidationError
  /\ LMModuleConfig_new None (Some 5.5%float) None None None = inl ValidationError.
Proof.
  split; [|split; [|split]].
  - apply (proj1 (temperature_bounds None 0%float None None None)); reflexivity.
  - apply (proj1 (temperature_bounds None 5%float None None None)); reflexivity.
  - apply (proj1 (proj2 (temperature_bounds None (-0.5)%float None None None))).
    left; reflexivity.
  - apply (proj1 (proj2 (temperature_bounds None 5.5%float None None None))).
    right; reflexivity.
Defined.

(** ** Keyword calls *)

Lemma call_keywords_clash explicit (kwargs : gmap string pyval) k v x :
  In (k, v) explicit -> kwargs !! k = Some x ->
  call_keywords explicit kwargs = inl TypeError.
Proof.
  intros Hin Hk. unfold call_keywords.
  replace (existsb _ explicit) with true; [reflexivity|].
  symmetry. apply existsb_exists. exists (k, v). split; [assumption|].
  unfold has_key. simpl. now rewrite Hk.
Qed.

Lemma call_keywords_fresh explicit (kwargs : gmap string pyval) :
  Forall (fun kv => kwargs !! kv.1 = None) explicit ->
  call_keywords explicit kwargs = inr (list_to_map explicit ∪ kwargs).
Proof.
  intros Hall. unfold call_keywords.
  replace (existsb _ explicit) with false; [reflexivity|].
  symmetry. induction Hall as [|kv l Hkv _ IH]; [reflexivity|].
  simpl. unfold has_key at 1. now rewrite Hkv.
Qed.

Section LMModuleProperties.
Context `{Services}.

Lemma forward_clash (self : LMModule) prompt (kwargs : gmap string pyval) w k x :
  In k ["model_id"; "prompt"; "temperature"; "max_tokens"] ->
  kwargs !! k = Some x ->
  forward self prompt kwargs w = (inl TypeError, self, w).
Proof.
  intros Hin Hk. unfold forward.
  simpl in Hin.
  destruct Hin as [<-|[<-|[<-|[<-|[]]]]];
    (erewrite call_keywords_clash; [reflexivity| |exact Hk]); simpl; eauto 6.
Qed.

Lemma forward_fresh (self : LMModule) (prompt : str) (kwargs : gmap string pyval) :
  kwargs !! "model_id" = None -> kwargs !! "prompt" = None ->
  kwargs !! "temperature" = None -> kwargs !! "max_tokens" = None ->
  call_keywords
    (explicit_keywords (config self) (_assemble_full_prompt (config self) prompt) kwargs)
    kwargs
  = inr (<["model_id" := PyStr (model_id (config self))]>
         (<["prompt" := PyStr (_assemble_full_prompt (config self) prompt)]>
          (<["temperature" := PyFloat (temperature (config self))]>
           (<["max_tokens" := of_optional_int (max_tokens (config self))]> kwargs)))).
Proof.
  intros Hm Hp Ht Hk.
  rewrite call_keywords_fresh by (repeat constructor; assumption).
  unfold explicit_keywords, dict_get. rewrite Ht, Hk. simpl.
  now rewrite <- !insert_union_l, (left_id_L ∅ (∪)).
Qed.

Lemma call_without_prompt_keyword (self : LMModule) (prompt : str)
    (kwargs : gmap string pyval) (w : World) :
  kwargs !! "prompt" = None ->
  __call__ self prompt kwargs w = forward self prompt kwargs w.
Proof.
  intros Hp. unfold __call__.
  rewrite call_keywords_fresh by (repeat constructor; assumption).
  simpl. rewrite <- insert_union_l, (left_id_L ∅ (∪)).
  now rewrite delete_insert_id.
Qed.

(** C3 (amended): when the extra keywords of a call [m.forward(prompt, ...)]
    or [m(prompt, ...)] hold neither [temperature] nor [max_tokens], and
    none of [model_id], [prompt] and [self], [invoke_model] is invoked with
    the stored model id, the assembled prompt, the stored temperature and
    the stored [max_tokens], followed by the extra keywords, and the call
    hands back what that invocation produces. *)
Theorem forward_falls_back_to_stored (self : LMModule) (prompt : str)
    (keywords : gmap string pyval) (w : World) :
  keywords !! "temperature" = None ->
  keywords !! "max_tokens" = None ->
  keywords !! "model_id" = None ->
  keywords !! "prompt" = None ->
  keywords !! "self" = None ->
  let received : gmap string pyval :=
    <["model_id" := PyStr (model_id (config self))]>
      (<["prompt" := PyStr (_assemble_full_prompt (config self) prompt)]>
         (<["temperature" := PyFloat (temperature (config self))]>
            (<["max_tokens" := of_optional_int (max_tokens (config self))]> keywords))) in
  let outcome := invoke_model (model_service self) received w in
  let result : (exception + pyval) * LMModule * World :=
    (match outcome.1 with
     | inl e => inl e
     | inr response =>
       inr (if hasattr response "data"
            then default PyNone (resp_attrs response !! "data")
            else PyStr (resp_str response))
     end, self, outcome.2) in
  received !! "temperature" = Some (PyFloat (temperature (config self)))
  /\ received !! "max_tokens" = Some (of_optional_int (max_tokens (config self)))
  /\ LMModule_forward self prompt keywords w = result
  /\ LMModule_call self prompt keywords w = result.
Proof.
  intros Ht Hk Hm Hp Hs received outcome result.
  assert (Hbind : bind_kwargs keywords = inr keywords).
  { unfold bind_kwargs, has_key. now rewrite Hs, Hp. }
  assert (Hforward : forward self prompt keywords w = result).
  { unfold forward. rewrite (forward_fresh self prompt keywords Hm Hp Ht Hk).
    subst result. fold received. fold outcome.
    destruct outcome as [[e|response] w']; reflexivity. }
  split; [|split; [|split]].
  - subst received. now rewrite !lookup_insert_ne, lookup_insert_eq by discriminate.
  - subst received. now rewrite !lookup_insert_ne, lookup_insert_eq by discriminate.
  - unfold LMModule_forward. now rewrite Hbind.
  - unfold LMModule_call. rewrite Hbind.
    now rewrite (call_without_prompt_keyword self prompt keywords w Hp).
Qed.

(** C5: [get_default_model_service] gives the same result whatever its two
    arguments are: the service made of the global registry and of the
    usage service that [UsageService()] constructs during the call. *)
Theorem get_default_model_service_ignores_arguments
    {A B A' B' : Type} (registry : A) (usage_service : B)
    (registry' : A') (usage_service' : B') (w : World) :
  get_default_model_service registry usage_service w
  = get_default_model_service registry' usage_service' w
  /\ get_default_model_service registry usage_service w
     = (Build_ModelService _ _ GLOBAL_MODEL_REGISTRY (UsageService_new w).1,
        (UsageService_new w).2).
Proof.
  unfold get_default_model_service.
  destruct (UsageService_new w) as [u w']. split; reflexivity.
Qed.

(** C6: a generation call, through [forward] or through [__call__], leaves
    the module's stored config as it was, whether the call returns or
    raises: the instance after the call has the same config (hence the
    same [model_id], [temperature], [max_tokens], [cot_prompt] and
    [persona]). *)
Theorem forward_keeps_config (self : LMModule) (prompt : str)
    (kwargs : gmap string pyval) (w : World) :
  config (forward self prompt kwargs w).1.2 = config self
  /\ config (__call__ self prompt kwargs w).1.2 = config self.
Proof.
  assert (Hf : forall kw, (forward self prompt kw w).1.2 = self).
  { intros kw. unfold forward.
    destruct (call_keywords _ kw) as [e|keywords]; [reflexivity|].
    destruct (invoke_model _ keywords w) as [[e|response] w']; reflexivity. }
  split; [now rewrite Hf|].
  unfold __call__. destruct (call_keywords _ kwargs); [reflexivity|now rewrite Hf].
Qed.

(** C8: when the [invoke_model] call of [forward] returns a response,
    [forward] returns the response's [data] attribute if the response has
    one, and the string conversion of the response otherwise. *)
Theorem forward_returns_data_or_str (self : LMModule) (prompt : str)
    (kwargs keywords : gmap string pyval) (w w' : World) (response : Response) :
  call_keywords
    (explicit_keywords (config self) (_assemble_full_prompt (config self) prompt) kwargs)
    kwargs = inr keywords ->
  invoke_model (model_service self) keywords w = (inr response, w') ->
  (forward self prompt kwargs w).1.1
  = inr (match resp_attrs response !! "data" with
         | Some data => data
         | None => PyStr (resp_str response)
         end).
Proof.
  intros Hcall Hinvoke. unfold forward. rewrite Hcall, Hinvoke. simpl.
  unfold hasattr. destruct (resp_attrs response !! "data"); reflexivity.
Qed.

(** C9: with [model_service] omitted, [__init__] raises [TypeError] at the
    call of [get_default_model_service] with no argument, before any
    attribute of the instance is assigned and without touching the world;
    so constructing an [LMModule] without a model service always fails,
    for every config. *)
Theorem init_without_service_raises (self : LMModule_dict) (config : LMModuleConfig)
    (w : World) :
  __init__ self config None w = (inl TypeError, self, w)
  /\ __init__ new_instance config None w = (inl TypeError, new_instance, w)
  /\ LMModule_new config None w = (inl TypeError, w).
Proof. repeat split. Qed.

Lemma init_with_service (config : LMModuleConfig) (s : service) (w : World) :
  exists self,
    LMModule_new config (Some s) w = (inr self, w)
    /\ initialised self
       = Some {| config := config; model_service := s; _logger := "LMModule" |}.
Proof. eexists. split; reflexivity. Qed.

End LMModuleProperties.

(** ** Runs on the recording service *)

Lemma forward_falls_back_to_stored_witness :
  let m := bare_module (recording echo) recording_service in
  let keywords : gmap string pyval := {[ "top_p" := PyFloat 0.9 ]} in
  let received : gmap string pyval :=
    <["model_id" := PyStr (lit "openai:gpt-4o")]>
      (<["prompt" := PyStr (lit "hi")]>
         (<["temperature" := PyFloat 1]>
            (<["max_tokens" := PyNone]> keywords))) in
  @LMModule_forward (recording echo) m (lit " hi ") keywords nothing_yet
  = (inr (PyStr (lit "Echo: hi")), m, {| calls := [received]; usage_services := 0 |})
  /\ @LMModule_call (recording echo) m (lit " hi ") keywords nothing_yet
     = (inr (PyStr (lit "Echo: hi")), m, {| calls := [received]; usage_services := 0 |}).
Proof.
  intros m keywords received.
  pose proof (@forward_falls_back_to_stored (recording echo) m (lit " hi ") keywords
                nothing_yet eq_refl eq_refl eq_refl eq_refl eq_refl)
    as (_ & _ & Hforward & Hcall).
  split.
  - exact (eq_trans Hforward eq_refl).
  - exact (eq_trans Hcall eq_refl).
Defined.

(** C3 (as stated, refuted): a call with neither [temperature] nor
    [max_tokens] among its extra keywords, but with [model_id] among them,
    raises [TypeError] and the service is not invoked at all, through
    [forward] and through [__call__] alike. *)
Lemma forward_model_id_keyword_raises :
  let m := bare_module (recording echo) recording_service in
  let kwargs : gmap string pyval := {[ "model_id" := PyStr (lit "provider:custom-model") ]} in
  kwargs !! "temperature" = None
  /\ kwargs !! "max_tokens" = None
  /\ @forward (recording echo) m (lit "hi") kwargs nothing_yet
     = (inl TypeError, m, nothing_yet)
  /\ calls (@forward (recording echo) m (lit "hi") kwargs nothing_yet).2 = []
  /\ @LMModule_forward (recording echo) m (lit "hi") kwargs nothing_yet
     = (inl TypeError, m, nothing_yet)
  /\ @LMModule_call (recording echo) m (lit "hi") kwargs nothing_yet
     = (inl TypeError, m, nothing_yet).
Proof. repeat split. Qed.

(** A keyword [self] gives the parameter [self] a second value: the call
    raises [TypeError] while binding, and the service is not invoked. *)
Example self_keyword_raises :
  let m := bare_module (recording echo) recording_service in
  @LMModule_forward (recording echo) m (lit "hi") {[ "self" := PyInt 1 ]} nothing_yet
  = (inl TypeError, m, nothing_yet)
  /\ @LMModule_call (recording echo) m (lit "hi") {[ "self" := PyInt 1 ]} nothing_yet
     = (inl TypeError, m, nothing_yet).
Proof. split; reflexivity. Qed.

(** C2 (the code at the failing input): a [forward] call whose extra
    keywords hold [temperature] raises [TypeError] at the call of
    [invoke_model], where the name is given twice, and the service is not
    invoked; so it is with the override 0.2 on a module whose stored
    temperature is 1.0. *)
Theorem forward_temperature_override_raises :
  (forall (S : Services) (self : @LMModule S) (prompt : str)
          (kwargs : gmap string pyval) (x : pyval) (w : @World S),
      forward self prompt (<["temperature" := x]> kwargs) w = (inl TypeError, self, w))
  /\ (let m := bare_module (recording echo) recording_service in
      temperature (config m) = 1%float
      /\ @forward (recording echo) m (lit "hi") {[ "temperature" := PyFloat 0.2 ]} nothing_yet
         = (inl TypeError, m, nothing_yet)
      /\ calls (@forward (recording echo) m (lit "hi")
                  {[ "temperature" := PyFloat 0.2 ]} nothing_yet).2 = []).
Proof.
  split.
  - intros S self prompt kwargs x w.
    apply (forward_clash self prompt _ w "temperature" x); [simpl; auto|].
    apply lookup_insert_eq.
  - repeat split.
Qed.

Lemma forward_returns_data_or_str_witness :
  let m := bare_module (recording structured) recording_service in
  let m' := bare_module (recording echo) recording_service in
  (@forward (recording structured) m (lit "What is 2+2?") ∅ nothing_yet).1.1
  = inr (PyStr (lit "4"))
  /\ (@forward (recording echo) m' (lit "What is 2+2?") ∅ nothing_yet).1.1
     = inr (PyStr (lit "Echo: What is 2+2?")).
Proof.
  intros m m'. split.
  - refine (eq_trans
      (@forward_returns_data_or_str (recording structured) m (lit "What is 2+2?") ∅ _
         nothing_yet _ _ eq_refl eq_refl) _); reflexivity.
  - refine (eq_trans
      (@forward_returns_data_or_str (recording echo) m' (lit "What is 2+2?") ∅ _
         nothing_yet _ _ eq_refl eq_refl) _); reflexivity.
Defined.

(** Handed a registry and a usage service of the caller's, the default
    service still holds the global registry and a usage service made
    during the call. *)
Example default_service_on_recording :
  @get_default_model_service (recording echo) _ _ "my_registry" 7%nat
    {| calls := []; usage_services := 8 |}
  = ({| registry := "GLOBAL_MODEL_REGISTRY"; usage_service := 8%nat |},
     {| calls := []; usage_services := 9 |}).
Proof. reflexivity. Qed.

(** Without any extra keyword the module can be called like a function,
    and the service receives the assembled prompt with the stored
    settings. *)
Example call_on_recording :
  let m := helper_module (recording echo) recording_service in
  (@__call__ (recording echo) m (lit "What is 2+2?") ∅ nothing_yet).1.1
  = inr (PyStr (lit "Echo: " ++ _assemble_full_prompt helper_config (lit "What is 2+2?")))
  /\ calls (@__call__ (recording echo) m (lit "What is 2+2?") ∅ nothing_yet).2
     = [ {[ "model_id" := PyStr (lit "openai:gpt-4o");
            "prompt" := PyStr (_assemble_full_prompt helper_config (lit "What is 2+2?"));
            "temperature" := PyFloat 1;
            "max_tokens" := PyNone ]} ].
Proof. split; reflexivity. Qed.

(** * Further properties *)

(** ** More on stripping *)

Lemma lstrip_nil_app (a s : str) : lstrip a = [] -> lstrip (a ++ s) = lstrip s.
Proof.
  induction a as [|c t IH]; simpl; [reflexivity|].
  destruct (isspace c); [exact IH|discriminate].
Qed.

Lemma lstrip_spaces (a : str) : Forall (fun c => isspace c = true) a -> lstrip a = [].
Proof.
  induction 1 as [|c t Hc _ IH]; simpl; [reflexivity|]. now rewrite Hc.
Qed.

(** A string that [lstrip] leaves alone stays in front when text is added
    behind it. *)
Lemma lstrip_fixed_app (u z : str) : u <> [] -> lstrip u = u -> lstrip (u ++ z) = u ++ z.
Proof.
  destruct u as [|c t]; [congruence|].
  intros _ E. apply lstrip_fixed_head in E. simpl. now rewrite E.
Qed.

Lemma lstrip_app_fixed (x v : str) :
  v <> [] -> lstrip v = v -> lstrip (x ++ v) = lstrip x ++ v.
Proof.
  intros Hne Hv. induction x as [|c t IH]; simpl; [exact Hv|].
  destruct (isspace c); [exact IH|reflexivity].
Qed.

Lemma rev_nonempty (s : str) : s <> [] -> rev s <> [].
Proof.
  intros Hne E. apply Hne. apply (f_equal (@rev _)) in E.
  now rewrite rev_involutive in E.
Qed.

Lemma rstrip_fixed_rev (v : str) : rstrip v = v -> lstrip (rev v) = rev v.
Proof.
  unfold rstrip. intros E. apply (f_equal (@rev _)) in E.
  now rewrite rev_involutive in E.
Qed.

Lemma rstrip_nil_app (s z : str) : rstrip z = [] -> rstrip (s ++ z) = rstrip s.
Proof.
  unfold rstrip. intros E. rewrite rev_app_distr, lstrip_nil_app; [reflexivity|].
  apply (f_equal (@rev _)) in E. now rewrite rev_involutive in E.
Qed.

Lemma rstrip_spaces (b : str) : Forall (fun c => isspace c = true) b -> rstrip b = [].
Proof.
  intros Hb. unfold rstrip. rewrite lstrip_spaces; [reflexivity|].
  now apply Forall_rev.
Qed.

(** A string that [rstrip] leaves alone stays at the end when text is added
    in front of it. *)
Lemma rstrip_fixed_app (y v : str) :
  rstrip v = v /\ v <> [] -> rstrip (y ++ v) = y ++ v /\ y ++ v <> [].
Proof.
  intros [Hv Hne]. split.
  - unfold rstrip. rewrite rev_app_distr.
    rewrite lstrip_fixed_app by auto using rev_nonempty, rstrip_fixed_rev.
    now rewrite rev_app_distr, !rev_involutive.
  - destruct y; [exact Hne|discriminate].
Qed.

Lemma rstrip_app_fixed (u z : str) :
  u <> [] -> rstrip u = u -> rstrip (u ++ z) = u ++ rstrip z.
Proof.
  intros Hne Hu. unfold rstrip at 1. rewrite rev_app_distr.
  rewrite lstrip_app_fixed by auto using rev_nonempty, rstrip_fixed_rev.
  now rewrite rev_app_distr, rev_involutive.
Qed.

Lemma strip_fixed (s : str) : lstrip s = s -> rstrip s = s -> strip s = s.
Proof. intros Hl Hr. unfold strip. now rewrite Hl. Qed.

Lemma lstrip_strip (s : str) : lstrip (strip s) = strip s.
Proof. unfold strip. apply lstrip_rstrip_fixed, lstrip_idem. Qed.

Lemma rstrip_strip (s : str) : rstrip (strip s) = strip s.
Proof. unfold strip. apply rstrip_idem. Qed.

Lemma strip_head (s : str) (c : char) : head (strip s) = Some c -> isspace c = false.
Proof.
  pose proof (lstrip_strip s) as E.
  destruct (strip s) as [|a t]; [discriminate|].
  intros [= <-]. exact (lstrip_fixed_head _ _ E).
Qed.

Lemma head_rev_last (s : str) : head (rev s) = last s.
Proof.
  induction s as [|x t _] using rev_ind; [reflexivity|].
  now rewrite rev_app_distr, last_snoc.
Qed.

Lemma strip_last (s : str) (c : char) : last (strip s) = Some c -> isspace c = false.
Proof.
  pose proof (rstrip_fixed_rev _ (rstrip_strip s)) as E.
  rewrite <- head_rev_last.
  destruct (rev (strip s)) as [|a t]; [discriminate|].
  intros [= <-]. exact (lstrip_fixed_head _ _ E).
Qed.

(** White space around a string does not change what [strip] gives. *)
Lemma strip_padding (a s b : str) :
  Forall (fun c => isspace c = true) a ->
  Forall (fun c => isspace c = true) b ->
  strip (a ++ s ++ b) = strip s.
Proof.
  intros Ha Hb. unfold strip.
  rewrite (lstrip_nil_app a) by now apply lstrip_spaces.
  destruct (lstrip s) as [|c t] eqn:E.
  - rewrite (lstrip_nil_app s) by exact E.
    now rewrite (lstrip_spaces b Hb).
  - assert (Hl : lstrip (s ++ b) = lstrip s ++ b).
    { clear Ha. induction s as [|x s IH]; [discriminate|].
      simpl in *. destruct (isspace x); [now apply IH|reflexivity]. }
    rewrite Hl, E. apply rstrip_nil_app. now apply rstrip_spaces.
Qed.

(** ** The shape of the assembled prompt *)

Lemma truthy_nonempty (s : str) : s <> [] -> truthy (Some s) = true.
Proof. destruct s; [congruence|reflexivity]. Qed.

Lemma strip_nonempty (s : str) : strip s <> [] -> s <> [].
Proof. intros H E. apply H. now rewrite E. Qed.

Lemma lit_nonempty (a : ascii) (s : string) : lit (String a s) <> [].
Proof. discriminate. Qed.

Ltac ends_tight :=
  repeat (apply rstrip_fixed_app);
  first [ split; [apply rstrip_strip | assumption]
        | split; [reflexivity | apply lit_nonempty] ].

Ltac starts_with_literal :=
  apply lstrip_fixed_app; [apply lit_nonempty | reflexivity].

(** X1: the assembled prompt neither starts nor ends with a white-space
    character, whatever the config and the user prompt are. *)
Theorem assemble_is_stripped (config : LMModuleConfig) (user_prompt : str) (c : char) :
  head (_assemble_full_prompt config user_prompt) = Some c
  \/ last (_assemble_full_prompt config user_prompt) = Some c ->
  isspace c = false.
Proof.
  unfold _assemble_full_prompt. intros [Hc|Hc].
  - exact (strip_head _ _ Hc).
  - exact (strip_last _ _ Hc).
Qed.

Lemma assemble_is_stripped_witness :
  isspace 91 = false /\ isspace 112 = false.
Proof.
  split.
  - apply (assemble_is_stripped helper_config (nl ++ lit " What is 2+2? ") 91).
    left. reflexivity.
  - apply (assemble_is_stripped helper_config (nl ++ lit " What is 2+2? ") 112).
    right. reflexivity.
Defined.

(** X2: white space before and after the user prompt does not change the
    assembled prompt. *)
Theorem assemble_ignores_padding (config : LMModuleConfig) (before user_prompt after : str) :
  Forall (fun c => isspace c = true) before ->
  Forall (fun c => isspace c = true) after ->
  _assemble_full_prompt config (before ++ user_prompt ++ after)
  = _assemble_full_prompt config user_prompt.
Proof.
  intros Hb Ha. unfold _assemble_full_prompt.
  now rewrite (strip_padding before user_prompt after Hb Ha).
Qed.

Lemma assemble_ignores_padding_witness :
  _assemble_full_prompt helper_config (lit "  " ++ lit "What is 2+2?" ++ nl)
  = _assemble_full_prompt helper_config (lit "What is 2+2?").
Proof.
  apply (assemble_ignores_padding helper_config (lit "  ") (lit "What is 2+2?") nl);
    repeat constructor.
Defined.

(** X3: with a non-empty persona and a chain-of-thought prompt that is not
    blank, the assembled prompt is the persona header, an empty line, the
    stripped user prompt, two empty lines, the chain-of-thought header and
    the stripped chain-of-thought text; the persona is not stripped. *)
Theorem assemble_persona_and_cot (config : LMModuleConfig) (user_prompt per cot : str) :
  persona config = Some per -> per <> [] ->
  cot_prompt config = Some cot -> strip cot <> [] ->
  _assemble_full_prompt config user_prompt
  = lit "[Persona: " ++ per ++ lit "]" ++ nl ++ nl ++ strip user_prompt
    ++ nl ++ nl ++ nl ++ lit "# Chain of Thought:" ++ nl ++ strip cot.
Proof.
  intros Hp Hper Hc Hcot. unfold _assemble_full_prompt.
  rewrite Hp, Hc, (truthy_nonempty per Hper),
    (truthy_nonempty cot (strip_nonempty cot Hcot)).
  change (text (Some per)) with per. change (text (Some cot)) with cot.
  cbn [app join]. rewrite <- !app_assoc.
  apply strip_fixed; [starts_with_literal|].
  apply rstrip_fixed_app. ends_tight.
Qed.

Lemma assemble_persona_and_cot_witness :
  _assemble_full_prompt helper_config (lit " hello ")
  = lit "[Persona: " ++ lit "Helper" ++ lit "]" ++ nl ++ nl ++ strip (lit " hello ")
    ++ nl ++ nl ++ nl ++ lit "# Chain of Thought:" ++ nl
    ++ strip (lit "Think step by step").
Proof.
  apply (assemble_persona_and_cot helper_config (lit " hello ") (lit "Helper")
           (lit "Think step by step")); try reflexivity; discriminate.
Defined.

(** X4: with a non-empty persona and no chain-of-thought prompt, the
    assembled prompt is the persona header, an empty line and the stripped
    user prompt; when the user prompt is blank it is the persona header
    alone. *)
Theorem assemble_persona_only (config : LMModuleConfig) (user_prompt per : str) :
  persona config = Some per -> per <> [] ->
  truthy (cot_prompt config) = false ->
  (strip user_prompt <> [] ->
   _assemble_full_prompt config user_prompt
   = lit "[Persona: " ++ per ++ lit "]" ++ nl ++ nl ++ strip user_prompt)
  /\ (strip user_prompt = [] ->
      _assemble_full_prompt config user_prompt = lit "[Persona: " ++ per ++ lit "]").
Proof.
  intros Hp Hper Hc. unfold _assemble_full_prompt.
  rewrite Hp, Hc, (truthy_nonempty per Hper).
  change (text (Some per)) with per.
  cbn [app join]. rewrite <- !app_assoc. split.
  - intros Hu. apply strip_fixed; [starts_with_literal|].
    apply rstrip_fixed_app. ends_tight.
  - intros ->. unfold strip.
    rewrite lstrip_fixed_app by (apply lit_nonempty || reflexivity).
    replace (lit "[Persona: " ++ per ++ lit "]" ++ nl ++ nl ++ [])
      with ((lit "[Persona: " ++ per ++ lit "]") ++ nl ++ nl)
      by (now rewrite <- !app_assoc, app_nil_r).
    rewrite rstrip_nil_app by reflexivity.
    apply rstrip_fixed_app. ends_tight.
Qed.

Lemma assemble_persona_only_witness :
  _assemble_full_prompt persona_only_config (lit " hi ")
  = lit "[Persona: Helper]" ++ nl ++ nl ++ lit "hi"
  /\ _assemble_full_prompt persona_only_config (lit "  ") = lit "[Persona: Helper]".
Proof.
  split.
  - refine (eq_trans (proj1 (assemble_persona_only persona_only_config (lit " hi ")
                               (lit "Helper") eq_refl _ eq_refl) _) _);
      [discriminate | discriminate | reflexivity].
  - refine (eq_trans (proj2 (assemble_persona_only persona_only_config (lit "  ")
                               (lit "Helper") eq_refl _ eq_refl) _) _);
      [discriminate | reflexivity | reflexivity].
Defined.

(** X5: with no persona and a chain-of-thought prompt that is not blank,
    the assembled prompt is the stripped user prompt, two empty lines, the
    chain-of-thought header and the stripped chain-of-thought text; when
    the user prompt is blank it starts at the chain-of-thought header. *)
Theorem assemble_cot_only (config : LMModuleConfig) (user_prompt cot : str) :
  truthy (persona config) = false ->
  cot_prompt config = Some cot -> strip cot <> [] ->
  (strip user_prompt <> [] ->
   _assemble_full_prompt config user_prompt
   = strip user_prompt ++ nl ++ nl ++ nl ++ lit "# Chain of Thought:" ++ nl ++ strip cot)
  /\ (strip user_prompt = [] ->
      _assemble_full_prompt config user_prompt
      = lit "# Chain of Thought:" ++ nl ++ strip cot).
Proof.
  intros Hp Hc Hcot. unfold _assemble_full_prompt.
  rewrite Hp, Hc, (truthy_nonempty cot (strip_nonempty cot Hcot)).
  change (text (Some cot)) with cot.
  cbn [app join]. rewrite <- ?app_assoc. split.
  - intros Hu. apply strip_fixed.
    + apply lstrip_fixed_app; [assumption|apply lstrip_strip].
    + apply rstrip_fixed_app. ends_tight.
  - intros ->. unfold strip. cbn [app].
    rewrite !(lstrip_nil_app nl) by reflexivity.
    rewrite lstrip_fixed_app by (apply lit_nonempty || reflexivity).
    apply rstrip_fixed_app. ends_tight.
Qed.

Lemma assemble_cot_only_witness :
  _assemble_full_prompt cot_only_config (lit " hi ")
  = lit "hi" ++ nl ++ nl ++ nl ++ lit "# Chain of Thought:" ++ nl
    ++ lit "Think step by step"
  /\ _assemble_full_prompt cot_only_config []
     = lit "# Chain of Thought:" ++ nl ++ lit "Think step by step".
Proof.
  split.
  - refine (eq_trans (proj1 (assemble_cot_only cot_only_config (lit " hi ")
                               (lit " Think step by step ") eq_refl eq_refl _) _) _);
      [discriminate | discriminate | reflexivity].
  - refine (eq_trans (proj2 (assemble_cot_only cot_only_config []
                               (lit " Think step by step ") eq_refl eq_refl _) _) _);
      [discriminate | reflexivity | reflexivity].
Defined.

(** X6: a chain-of-thought prompt that is not empty but blank is not
    treated as absent: the assembled prompt then ends with the
    chain-of-thought header, with no text after it; with no persona and a
    user prompt that is not blank it is the stripped user prompt, two
    empty lines and the header. *)
Theorem assemble_blank_cot (config : LMModuleConfig) (user_prompt cot : str) :
  cot_prompt config = Some cot -> cot <> [] -> strip cot = [] ->
  (exists before,
      _assemble_full_prompt config user_prompt = before ++ lit "# Chain of Thought:")
  /\ (truthy (persona config) = false -> strip user_prompt <> [] ->
      _assemble_full_prompt config user_prompt
      = strip user_prompt ++ nl ++ nl ++ nl ++ lit "# Chain of Thought:").
Proof.
  intros Hc Hne Hcot.
  assert (Hshape : forall x : str,
             strip (x ++ nl ++ nl ++ nl ++ lit "# Chain of Thought:" ++ nl ++ [])
             = lstrip (x ++ nl ++ nl ++ nl) ++ lit "# Chain of Thought:").
  { intros x. unfold strip.
    replace (x ++ nl ++ nl ++ nl ++ lit "# Chain of Thought:" ++ nl ++ [])
      with ((x ++ nl ++ nl ++ nl) ++ lit "# Chain of Thought:" ++ nl)
      by (now rewrite <- !app_assoc, app_nil_r).
    rewrite lstrip_app_fixed by (discriminate || reflexivity).
    rewrite (app_assoc _ _ nl), rstrip_nil_app by reflexivity.
    apply rstrip_fixed_app. ends_tight. }
  unfold _assemble_full_prompt.
  rewrite Hc, (truthy_nonempty cot Hne).
  change (text (Some cot)) with cot. rewrite Hcot. split.
  - destruct (truthy (persona config)); cbn [app join].
    + replace ((lit "[Persona: " ++ text (persona config) ++ lit "]" ++ nl) ++ nl
               ++ strip user_prompt ++ nl
               ++ nl ++ nl ++ lit "# Chain of Thought:" ++ nl ++ [])
        with ((lit "[Persona: " ++ text (persona config) ++ lit "]" ++ nl ++ nl
               ++ strip user_prompt)
              ++ nl ++ nl ++ nl ++ lit "# Chain of Thought:" ++ nl ++ [])
        by (now rewrite <- !app_assoc).
      rewrite Hshape. eauto.
    + rewrite Hshape. eauto.
  - intros -> Hu. cbn [app join]. rewrite Hshape.
    rewrite lstrip_fixed_app; [now rewrite <- !app_assoc|assumption|].
    apply lstrip_strip.
Qed.

Lemma assemble_blank_cot_witness :
  _assemble_full_prompt blank_cot_config (lit " hi ")
  = lit "hi" ++ nl ++ nl ++ nl ++ lit "# Chain of Thought:".
Proof.
  refine (eq_trans (proj2 (assemble_blank_cot blank_cot_config (lit " hi ") (lit " ")
                             eq_refl _ eq_refl) eq_refl _) _);
    [discriminate | discriminate | reflexivity].
Defined.

(** ** More on the generation call *)

Lemma call_keywords_inv explicit (kwargs keywords : gmap string pyval) :
  call_keywords explicit kwargs = inr keywords ->
  Forall (fun kv => kwargs !! kv.1 = None) explicit
  /\ keywords = list_to_map explicit ∪ kwargs.
Proof.
  unfold call_keywords. destruct (existsb _ explicit) eqn:E; [discriminate|].
  intros [= <-]. split; [|reflexivity].
  apply Forall_forall. intros kv Hin. apply list_elem_of_In in Hin.
  destruct (kwargs !! kv.1) eqn:Hk; [|reflexivity].
  assert (existsb (fun kv => has_key kwargs kv.1) explicit = true) as E'.
  { apply existsb_exists. exists kv. split; [assumption|].
    unfold has_key. now rewrite Hk. }
  congruence.
Qed.

Lemma call_keywords_raises explicit (kwargs : gmap string pyval) e :
  call_keywords explicit kwargs = inl e -> e = TypeError.
Proof.
  unfold call_keywords. destruct (existsb _ explicit); [|discriminate].
  now intros [= <-].
Qed.

Section GenerationCall.
Context `{Services}.

Lemma forward_keywords_inv (self : LMModule) (prompt : str)
    (kwargs keywords : gmap string pyval) :
  call_keywords
    (explicit_keywords (config self) (_assemble_full_prompt (config self) prompt) kwargs)
    kwargs = inr keywords ->
  (kwargs !! "model_id" = None /\ kwargs !! "prompt" = None
   /\ kwargs !! "temperature" = None /\ kwargs !! "max_tokens" = None)
  /\ keywords
     = <["model_id" := PyStr (model_id (config self))]>
         (<["prompt" := PyStr (_assemble_full_prompt (config self) prompt)]>
            (<["temperature" := PyFloat (temperature (config self))]>
               (<["max_tokens" := of_optional_int (max_tokens (config self))]> kwargs))).
Proof.
  intros Hcall. pose proof (call_keywords_inv _ _ _ Hcall) as [Hall _].
  unfold explicit_keywords in Hall.
  inversion Hall as [|? ? Hm Hall1]; subst.
  inversion Hall1 as [|? ? Hp Hall2]; subst.
  inversion Hall2 as [|? ? Ht Hall3]; subst.
  inversion Hall3 as [|? ? Hk _]; subst.
  simpl in Hm, Hp, Ht, Hk. split; [auto|].
  rewrite (forward_fresh self prompt kwargs Hm Hp Ht Hk) in Hcall.
  now injection Hcall.
Qed.

(** X7: a [forward] call whose extra keywords hold [model_id], [prompt],
    [temperature] or [max_tokens] raises [TypeError]; the instance and the
    world are as before, so the service has not been invoked. *)
Theorem forward_repeated_keyword_raises (self : LMModule) (prompt : str)
    (kwargs : gmap string pyval) (w : World) (k : string) (x : pyval) :
  In k ["model_id"; "prompt"; "temperature"; "max_tokens"] ->
  kwargs !! k = Some x ->
  forward self prompt kwargs w = (inl TypeError, self, w).
Proof. apply forward_clash. Qed.

(** X9: an exception raised by [invoke_model] comes out of [forward] as it
    is, with the world as the service left it. *)
Theorem forward_propagates_service_error (self : LMModule) (prompt : str)
    (kwargs keywords : gmap string pyval) (w w' : World) (e : exception) :
  call_keywords
    (explicit_keywords (config self) (_assemble_full_prompt (config self) prompt) kwargs)
    kwargs = inr keywords ->
  invoke_model (model_service self) keywords w = (inl e, w') ->
  forward self prompt kwargs w = (inl e, self, w').
Proof. intros Hcall Hinvoke. unfold forward. now rewrite Hcall, Hinvoke. Qed.

(** X10: calling the instance is calling [forward]: for extra keywords
    without [prompt], [__call__] gives the result of [forward], the same
    instance and the same world. *)
Theorem call_is_forward (self : LMModule) (prompt : str)
    (kwargs : gmap string pyval) (w : World) :
  kwargs !! "prompt" = None ->
  __call__ self prompt kwargs w = forward self prompt kwargs w.
Proof. apply call_without_prompt_keyword. Qed.

(** X11: with a model service supplied, constructing an [LMModule]
    succeeds for every config: the instance holds the config and the
    service as given, and the world is untouched, so no default service
    and no usage service is made. *)
Theorem init_with_service_succeeds (cfg : LMModuleConfig) (s : service) (w : World) :
  exists self m,
    LMModule_new cfg (Some s) w = (inr self, w)
    /\ initialised self = Some m
    /\ config m = cfg
    /\ model_service m = s.
Proof. do 2 eexists. repeat split. Qed.

Lemma built_config_bounds
    (mid : option str) (t : option float) (mt : option Z) (cot per : option str)
    (c : LMModuleConfig) :
  LMModuleConfig_new mid t mt cot per = inr c ->
  (0 <=? temperature c)%float = true /\ (temperature c <=? 5)%float = true.
Proof.
  unfold LMModuleConfig_new, field_bounds. destruct t as [t|].
  - destruct (0 <=? t)%float eqn:E0, (t <=? 5)%float eqn:E5; try discriminate.
    intros [= <-]. simpl. auto.
  - intros [= <-]. simpl. split; reflexivity.
Qed.

End GenerationCall.

(** ** More runs on the recording service *)

Lemma forward_repeated_keyword_raises_witness :
  let m := bare_module (recording echo) recording_service in
  @forward (recording echo) m (lit "hi") {[ "max_tokens" := PyInt 100 ]} nothing_yet
  = (inl TypeError, m, nothing_yet).
Proof.
  intros m.
  apply (@forward_repeated_keyword_raises (recording echo) m (lit "hi")
           {[ "max_tokens" := PyInt 100 ]} nothing_yet "max_tokens" (PyInt 100)).
  - simpl. auto.
  - reflexivity.
Defined.

(** X8: on a service that records its calls, whatever it replies, a
    [forward] call either raises [TypeError] and leaves the record as it
    was, or adds exactly one call to it; that call carries the stored
    model id, the assembled prompt, the stored temperature and the stored
    [max_tokens], and every extra keyword with its value. *)
Theorem forward_invokes_once_with_stored_settings
    (reply : gmap string pyval -> exception + Response)
    (self : @LMModule (recording reply)) (prompt : str)
    (kwargs : gmap string pyval) (w : recorded) :
  @forward (recording reply) self prompt kwargs w = (inl TypeError, self, w)
  \/ exists keywords : gmap string pyval,
      calls (@forward (recording reply) self prompt kwargs w).2 = calls w ++ [keywords]
      /\ usage_services (@forward (recording reply) self prompt kwargs w).2
         = usage_services w
      /\ keywords !! "model_id" = Some (PyStr (model_id (config self)))
      /\ keywords !! "prompt"
         = Some (PyStr (_assemble_full_prompt (config self) prompt))
      /\ keywords !! "temperature" = Some (PyFloat (temperature (config self)))
      /\ keywords !! "max_tokens" = Some (of_optional_int (max_tokens (config self)))
      /\ forall k v, kwargs !! k = Some v -> keywords !! k = Some v.
Proof.
  unfold forward.
  destruct (call_keywords
              (explicit_keywords (config self)
                 (_assemble_full_prompt (config self) prompt) kwargs) kwargs)
    as [e|keywords] eqn:Hcall.
  - left. now rewrite (call_keywords_raises _ _ _ Hcall).
  - right. exists keywords.
    destruct (@forward_keywords_inv (recording reply) self prompt kwargs keywords Hcall)
      as [(Hm & Hp & Ht & Hk) Hkeys].
    cbn [invoke_model recording].
    split; [destruct (reply keywords); reflexivity|].
    split; [destruct (reply keywords); reflexivity|].
    rewrite Hkeys. repeat split.
    + now rewrite lookup_insert_eq.
    + now rewrite lookup_insert_ne, lookup_insert_eq by discriminate.
    + now rewrite !lookup_insert_ne, lookup_insert_eq by discriminate.
    + now rewrite !lookup_insert_ne, lookup_insert_eq by discriminate.
    + intros k v Hkv. rewrite !lookup_insert_ne; [assumption|congruence..].
Qed.

Lemma forward_propagates_service_error_witness :
  let m := bare_module (recording unavailable) recording_service in
  @forward (recording unavailable) m (lit "hi") ∅ nothing_yet
  = (inl (Raised "RuntimeError"), m,
     {| calls := [ {[ "model_id" := PyStr (lit "openai:gpt-4o");
                      "prompt" := PyStr (lit "hi");
                      "temperature" := PyFloat 1;
                      "max_tokens" := PyNone ]} ];
        usage_services := 0 |}).
Proof.
  intros m.
  refine (eq_trans
    (@forward_propagates_service_error (recording unavailable) m (lit "hi") ∅ _
       nothing_yet _ _ eq_refl eq_refl) _).
  reflexivity.
Defined.

Lemma call_is_forward_witness :
  let m := bare_module (recording echo) recording_service in
  @__call__ (recording echo) m (lit "hi") {[ "top_p" := PyFloat 0.9 ]} nothing_yet
  = @forward (recording echo) m (lit "hi") {[ "top_p" := PyFloat 0.9 ]} nothing_yet.
Proof.
  intros m.
  apply (@call_is_forward (recording echo) m (lit "hi") {[ "top_p" := PyFloat 0.9 ]}
           nothing_yet).
  reflexivity.
Defined.

(** X12: for a module whose config [LMModuleConfig_new] has built, with
    the temperature given or defaulted, a [forward] call on a service that
    records its calls either raises [TypeError] and leaves the record as
    it was, or adds exactly one [invoke_model] call, and the temperature
    that call carries is the config's, which lies between 0.0 and 5.0. *)
Theorem service_sees_validated_temperature
    (reply : gmap string pyval -> exception + Response)
    (mid : option str) (t : option float) (mt : option Z) (cot per : option str)
    (self : @LMModule (recording reply)) (prompt : str)
    (kwargs : gmap string pyval) (w : recorded) :
  LMModuleConfig_new mid t mt cot per = inr (config self) ->
  @forward (recording reply) self prompt kwargs w = (inl TypeError, self, w)
  \/ exists (keywords : gmap string pyval) (x : float),
      calls (@forward (recording reply) self prompt kwargs w).2 = calls w ++ [keywords]
      /\ keywords !! "temperature" = Some (PyFloat x)
      /\ x = temperature (config self)
      /\ (0 <=? x)%float = true
      /\ (x <=? 5)%float = true.
Proof.
  intros Hnew. unfold forward.
  destruct (call_keywords
              (explicit_keywords (config self)
                 (_assemble_full_prompt (config self) prompt) kwargs) kwargs)
    as [e|keywords] eqn:Hcall.
  - left. now rewrite (call_keywords_raises _ _ _ Hcall).
  - right. exists keywords, (temperature (config self)).
    destruct (@forward_keywords_inv (recording reply) self prompt kwargs keywords Hcall)
      as [_ Hkeys].
    destruct (built_config_bounds _ _ _ _ _ _ Hnew) as [H0 H5].
    cbn [invoke_model recording].
    split; [destruct (reply keywords); reflexivity|].
    split; [|auto].
    rewrite Hkeys. now rewrite !lookup_insert_ne, lookup_insert_eq by discriminate.
Qed.

Lemma service_sees_validated_temperature_witness :
  let m := custom_module (recording echo) recording_service in
  @forward (recording echo) m (lit "Hello, world!") ∅ nothing_yet
  = (inl TypeError, m, nothing_yet)
  \/ exists (keywords : gmap string pyval) (x : float),
      calls (@forward (recording echo) m (lit "Hello, world!") ∅ nothing_yet).2
      = calls nothing_yet ++ [keywords]
      /\ keywords !! "temperature" = Some (PyFloat x)
      /\ x = temperature (config m)
      /\ (0 <=? x)%float = true
      /\ (x <=? 5)%float = true.
Proof.
  intros m.
  apply (@service_sees_validated_temperature echo
           (Some (lit "provider:custom-model")) (Some 0.7%float) None None None
           m (lit "Hello, world!") ∅ nothing_yet).
  reflexivity.
Defined.

(** ** What the assembled prompt always holds *)

Lemma strip_around (x v z : str) :
  v <> [] -> lstrip v = v -> rstrip v = v ->
  strip (x ++ v ++ z) = lstrip x ++ v ++ rstrip z.
Proof.
  intros Hne Hl Hr. unfold strip.
  rewrite (lstrip_app_fixed x (v ++ z)).
  - rewrite app_assoc, rstrip_app_fixed.
    + now rewrite <- app_assoc.
    + destruct (lstrip x); [exact Hne|discriminate].
    + now apply rstrip_fixed_app.
  - destruct v; [congruence|discriminate].
  - now apply lstrip_fixed_app.
Qed.

(** X13: with a non-empty persona the assembled prompt starts with the
    persona header, whatever the user prompt and the chain-of-thought
    prompt are. *)
Theorem assemble_starts_with_persona (config : LMModuleConfig) (user_prompt per : str) :
  persona config = Some per -> per <> [] ->
  exists rest,
    _assemble_full_prompt config user_prompt
    = lit "[Persona: " ++ per ++ lit "]" ++ rest.
Proof.
  intros Hp Hper. unfold _assemble_full_prompt.
  rewrite Hp, (truthy_nonempty per Hper).
  change (text (Some per)) with per.
  assert (Hshape : forall z : str,
             strip ((lit "[Persona: " ++ per ++ lit "]" ++ nl) ++ z)
             = lit "[Persona: " ++ per ++ lit "]" ++ rstrip (nl ++ z)).
  { intros z.
    replace ((lit "[Persona: " ++ per ++ lit "]" ++ nl) ++ z)
      with ([] ++ (lit "[Persona: " ++ per ++ lit "]") ++ nl ++ z)
      by (now rewrite <- !app_assoc).
    rewrite strip_around.
    - now rewrite <- !app_assoc.
    - intros E. now apply app_eq_nil in E as [E _].
    - starts_with_literal.
    - apply rstrip_fixed_app. ends_tight. }
  destruct (truthy (cot_prompt config)); cbn [app join]; rewrite Hshape; eauto.
Qed.

Lemma assemble_starts_with_persona_witness :
  exists rest,
    _assemble_full_prompt helper_config (lit "What is 2+2?")
    = lit "[Persona: " ++ lit "Helper" ++ lit "]" ++ rest.
Proof.
  apply (assemble_starts_with_persona helper_config (lit "What is 2+2?") (lit "Helper"));
    [reflexivity | discriminate].
Defined.

(** X14: the stripped user prompt always appears in the assembled prompt,
    unchanged, whatever the config is. *)
Theorem assemble_holds_user_prompt (config : LMModuleConfig) (user_prompt : str) :
  exists before after,
    _assemble_full_prompt config user_prompt = before ++ strip user_prompt ++ after.
Proof.
  destruct (strip user_prompt) as [|c t] eqn:E.
  { exists (_assemble_full_prompt config user_prompt), []. now rewrite app_nil_r. }
  rewrite <- E.
  assert (Hne : strip user_prompt <> []) by (rewrite E; discriminate).
  assert (Hshape : forall x z : str, exists before after,
             strip (x ++ strip user_prompt ++ z) = before ++ strip user_prompt ++ after).
  { intros x z. eexists _, _.
    apply strip_around; [exact Hne|apply lstrip_strip|apply rstrip_strip]. }
  unfold _assemble_full_prompt.
  destruct (truthy (persona config)), (truthy (cot_prompt config)); cbn [app join].
  - match goal with
    | |- context [strip (?a ++ nl ++ strip user_prompt ++ nl ++ ?c)] =>
      destruct (Hshape (a ++ nl) (nl ++ c)) as (before & after & Hs)
    end.
    exists before, after. rewrite <- Hs. f_equal. now rewrite <- !app_assoc.
  - match goal with
    | |- context [strip (?a ++ nl ++ strip user_prompt)] =>
      destruct (Hshape (a ++ nl) []) as (before & after & Hs)
    end.
    exists before, after. rewrite <- Hs. f_equal. now rewrite <- !app_assoc, app_nil_r.
  - apply (Hshape []).
  - destruct (Hshape [] []) as (before & after & Hs).
    exists before, after. rewrite <- Hs. f_equal. now rewrite app_nil_r.
Qed.
